(** * Webhook payload shapes of the RevenueCat webhook type declarations

    Shallow embedding of [src/index.d.ts].  The source is a TypeScript
    declaration file: it declares JSON payload shapes and no runtime code.
    We model
    - JSON values as they arrive on the wire ([json]);
    - the TypeScript types used by the declarations ([ty]): primitives,
      string literal types, unions, arrays, [Record<string, _>], [any] and
      object types with required ([x: T]) and optional ([x?: T]) properties;
    - structural assignability of a JSON value to a type ([conforms]).

    The declaration file contains two snapshots of the catalog: the first one
    (lines 1-480) wraps the event union under [event] next to [api_version]
    ([Nested]); the second one (lines 483-653) makes the union the top-level
    object ([Flat]). *)

From Stdlib Require Import String List Bool QArith.
Import ListNotations.
Open Scope string_scope.
Set Warnings "-register-all".

(** ** JSON values *)

Inductive json : Type :=
| JNull : json
| JBool : bool -> json
| JNum : Q -> json
| JStr : string -> json
| JArr : list json -> json
| JObj : list (string * json) -> json.

(** Property lookup in a JSON object. *)
Fixpoint lookup (k : string) (kvs : list (string * json)) : option json :=
  match kvs with
  | [] => None
  | (k', v) :: r => if String.eqb k k' then Some v else lookup k r
  end.

(** Setting a property: every earlier binding of the key is dropped and the
    new one put in front. *)
Definition remove_field (k : string) (kvs : list (string * json)) :=
  filter (fun kv => negb (String.eqb k (fst kv))) kvs.

Definition set_field (k : string) (v : json) (kvs : list (string * json)) :=
  (k, v) :: remove_field k kvs.

(** ** TypeScript types used by the declarations *)

Inductive ty : Type :=
| TString : ty                            (* string *)
| TNumber : ty                            (* number *)
| TBool : ty                              (* boolean *)
| TNull : ty                              (* null *)
| TAny : ty                               (* any *)
| TNever : ty                             (* never: the empty union *)
| TLit : string -> ty                     (* "LITERAL" *)
| TUnion : ty -> ty -> ty                 (* A | B *)
| TArray : ty -> ty                       (* T[] *)
| TRecord : ty -> ty                      (* Record<string, T> *)
| TObj : list (string * bool * ty) -> ty. (* { k: T; k?: T } *)

(** A property [name: T] (required) and [name?: T] (optional). *)
Definition req (n : string) (t : ty) : string * bool * ty := (n, false, t).
Definition opt (n : string) (t : ty) : string * bool * ty := (n, true, t).

(** [A | B | ...] written as a list of members. *)
Definition union_of (l : list ty) : ty := fold_right TUnion TNever l.

(** [interface I extends B { own }]: the object type with the properties of
    [B] and [own]. *)
Definition extend (base own : list (string * bool * ty)) : ty := TObj (own ++ base).

(** Structural assignability of a JSON value to a type.  Object types admit
    properties they do not declare; an optional property may be absent, a
    required one must be present (also when its type admits [null]). *)
Fixpoint conforms (t : ty) (v : json) {struct t} : bool :=
  match t with
  | TString => match v with JStr _ => true | _ => false end
  | TNumber => match v with JNum _ => true | _ => false end
  | TBool => match v with JBool _ => true | _ => false end
  | TNull => match v with JNull => true | _ => false end
  | TAny => true
  | TNever => false
  | TLit s => match v with JStr s' => String.eqb s s' | _ => false end
  | TUnion a b => conforms a v || conforms b v
  | TArray a => match v with JArr l => forallb (conforms a) l | _ => false end
  | TRecord a =>
      match v with JObj kvs => forallb (fun kv => conforms a (snd kv)) kvs | _ => false end
  | TObj fs =>
      match v with
      | JObj kvs =>
          (fix go (fs : list (string * bool * ty)) : bool :=
             match fs with
             | [] => true
             | (n, o, a) :: r =>
                 match lookup n kvs with
                 | None => o
                 | Some x => conforms a x
                 end && go r
             end) fs
      | _ => false
      end
  end.

(** Names of the properties an object type declares. *)
Definition field_names (t : ty) : list string :=
  match t with
  | TObj fs => map (fun f => fst (fst f)) fs
  | _ => []
  end.

(** The literal of the discriminating [type] property of an object type. *)
Fixpoint tag_in (fs : list (string * bool * ty)) : option string :=
  match fs with
  | [] => None
  | (n, false, TLit s) :: r => if String.eqb n "type" then Some s else tag_in r
  | _ :: r => tag_in r
  end.

Definition tag_of (t : ty) : option string :=
  match t with TObj fs => tag_in fs | _ => None end.

(** ** The two snapshots of the catalog *)

Inductive snapshot : Type := Nested | Flat.

(** The string literals of the twelve documented event types. *)
Definition twelve_tags : list string :=
  ["INITIAL_PURCHASE"; "RENEWAL"; "CANCELLATION"; "UNCANCELLATION";
   "NON_RENEWING_PURCHASE"; "EXPIRATION"; "SUBSCRIPTION_PAUSED"; "BILLING_ISSUE";
   "PRODUCT_CHANGE"; "SUBSCRIPTION_EXTENDED"; "TEMPORARY_ENTITLEMENT_GRANT"; "TRANSFER"].

(** *** First snapshot: [src/index.d.ts] lines 1-480 *)
Module Nested.

Definition Store : ty :=
  union_of (map TLit ["AMAZON"; "APP_STORE"; "MAC_APP_STORE"; "PLAY_STORE"; "PROMOTIONAL"; "STRIPE"]).

Definition Environment : ty := union_of (map TLit ["SANDBOX"; "PRODUCTION"]).

Definition CancelReason : ty :=
  union_of (map TLit ["UNSUBSCRIBE"; "BILLING_ERROR"; "DEVELOPER_INITIATED";
                      "PRICE_INCREASE"; "CUSTOMER_SUPPORT"; "UNKNOWN"]).

Definition ExpirationReason : ty :=
  union_of (map TLit ["UNSUBSCRIBE"; "BILLING_ERROR"; "DEVELOPER_INITIATED";
                      "PRICE_INCREASE"; "CUSTOMER_SUPPORT"; "SUBSCRIPTION_PAUSED"; "UNKNOWN"]).

Definition Attributes : ty :=
  TRecord (TObj [req "updated_at_ms" TNumber; req "value" TString]).

Definition WebhookBase : list (string * bool * ty) :=
  [ req "id" TString;
    req "app_id" TString;
    req "event_timestamp_ms" TNumber;
    req "product_id" TString;
    req "period_type" TString;
    req "purchased_at_ms" TNumber;
    req "expiration_at_ms" TNumber;
    req "environment" Environment;
    req "entitlement_id" (TUnion TString TNull);
    req "entitlement_ids" (TUnion (TArray TString) TNull);
    req "presented_offering_id" (TUnion TString TNull);
    req "transaction_id" TString;
    req "original_transaction_id" TString;
    req "is_family_share" TBool;
    req "country_code" TString;
    req "app_user_id" TString;
    req "aliases" (TArray TString);
    req "original_app_user_id" TString;
    req "currency" TString;
    req "price" (TUnion TNumber TNull);
    req "price_in_purchased_currency" (TUnion TNumber TNull);
    req "renewal_number" (TUnion TNull TNumber);
    req "subscriber_attributes" Attributes;
    req "store" Store;
    opt "takehome_percentage" TNumber;
    opt "offer_code" (TUnion TNull TString);
    opt "tax_percentage" TNumber;
    opt "commission_percentage" TNumber;
    req "metadata" (TUnion TNull TAny) ].

Definition WebhookInitialPurchase : ty :=
  extend WebhookBase [req "type" (TLit "INITIAL_PURCHASE")].

Definition WebhookRenewal : ty :=
  extend WebhookBase [req "type" (TLit "RENEWAL"); req "is_trial_conversion" TBool].

Definition WebhookCancellation : ty :=
  extend WebhookBase [req "type" (TLit "CANCELLATION"); req "cancel_reason" CancelReason].

Definition WebhookUnCancellation : ty :=
  extend WebhookBase [req "type" (TLit "UNCANCELLATION")].

Definition WebhookNonRenewingPurchase : ty :=
  extend WebhookBase [req "type" (TLit "NON_RENEWING_PURCHASE")].

Definition WebhookExpiration : ty :=
  extend WebhookBase [req "type" (TLit "EXPIRATION"); req "expiration_reason" ExpirationReason].

Definition WebhookSubscriptionPaused : ty :=
  extend WebhookBase [req "type" (TLit "SUBSCRIPTION_PAUSED");
                      req "expiration_reason" ExpirationReason;
                      opt "auto_resume_at_ms" TNumber].

Definition WebhookBillingIssue : ty :=
  extend WebhookBase [req "type" (TLit "BILLING_ISSUE");
                      req "grace_period_expiration_at_ms" (TUnion TNumber TNull)].

Definition WebhookProductChange : ty :=
  extend WebhookBase [req "type" (TLit "PRODUCT_CHANGE"); opt "new_product_id" TString].

Definition WebhookSubscriptionExtended : ty :=
  extend WebhookBase [req "type" (TLit "SUBSCRIPTION_EXTENDED")].

Definition WebhookTemporaryEntitlementGrant : ty :=
  TObj [ req "type" (TLit "TEMPORARY_ENTITLEMENT_GRANT");
         req "id" TString;
         req "app_user_id" TString;
         req "purchased_at_ms" TNumber;
         req "expiration_at_ms" TNumber;
         req "event_timestamp_ms" TNumber;
         req "product_id" TString;
         req "entitlement_ids" (TUnion (TArray TString) TNull);
         req "store" Store;
         req "transaction_id" TString ].

Definition WebhookTransfer : ty :=
  TObj [ req "type" (TLit "TRANSFER");
         req "id" TString;
         req "app_id" TString;
         req "environment" Environment;
         req "store" Store;
         req "event_timestamp_ms" TNumber;
         req "transferred_from" (TArray TString);
         req "transferred_to" (TArray TString) ].

(** The members of the [event] union, in the order of the source. *)
Definition events : list ty :=
  [ WebhookInitialPurchase; WebhookRenewal; WebhookCancellation; WebhookUnCancellation;
    WebhookNonRenewingPurchase; WebhookExpiration; WebhookSubscriptionPaused;
    WebhookBillingIssue; WebhookProductChange; WebhookSubscriptionExtended;
    WebhookTemporaryEntitlementGrant; WebhookTransfer ].

(** The members declared with [extends WebhookBase]. *)
Definition envelope_events : list ty :=
  [ WebhookInitialPurchase; WebhookRenewal; WebhookCancellation; WebhookUnCancellation;
    WebhookNonRenewingPurchase; WebhookExpiration; WebhookSubscriptionPaused;
    WebhookBillingIssue; WebhookProductChange; WebhookSubscriptionExtended ].

Definition Webhook : ty :=
  TObj [ req "api_version" TString; req "event" (union_of events) ].

End Nested.

(** *** Second snapshot: [src/index.d.ts] lines 483-653 *)
Module Flat.

Definition Store : ty :=
  union_of (map TLit ["AMAZON"; "APP_STORE"; "MAC_APP_STORE"; "PLAY_STORE"; "PROMOTIONAL"; "STRIPE"]).

Definition Environment : ty := union_of (map TLit ["SANDBOX"; "PRODUCTION"]).

Definition CancelReason : ty :=
  union_of (map TLit ["UNSUBSCRIBE"; "BILLING_ERROR"; "DEVELOPER_INITIATED";
                      "PRICE_INCREASE"; "CUSTOMER_SUPPORT"; "UNKNOWN"]).

Definition ExpirationReason : ty :=
  union_of (map TLit ["UNSUBSCRIBE"; "BILLING_ERROR"; "DEVELOPER_INITIATED";
                      "PRICE_INCREASE"; "CUSTOMER_SUPPORT"; "UNKNOWN"]).

Definition Attributes : ty :=
  TRecord (TObj [req "updated_at_ms" TNumber; req "value" TString]).

Definition WebhookBase : list (string * bool * ty) :=
  [ req "id" TString;
    req "app_id" TString;
    req "event_timestamp_ms" TNumber;
    req "product_id" TString;
    req "period_type" TString;
    req "purchased_at_ms" TNumber;
    req "expiration_at_ms" TNumber;
    req "environment" Environment;
    req "entitlement_id" (TUnion TString TNull);
    req "entitlement_ids" (TArray TString);
    req "presented_offering_id" (TUnion TString TNull);
    req "transaction_id" TString;
    req "original_transaction_id" TString;
    req "is_family_share" TBool;
    req "country_code" TString;
    req "app_user_id" TString;
    req "aliases" (TArray TString);
    req "original_app_user_id" TString;
    req "currency" TString;
    req "price" TNumber;
    req "price_in_purchased_currency" TNumber;
    req "subscriber_attributes" Attributes;
    req "store" Store;
    opt "takehome_percentage" TNumber;
    opt "offer_code" (TUnion TNull TString);
    opt "tax_percentage" TNumber;
    opt "commission_percentage" TNumber ].

Definition WebhookInitialPurchase : ty :=
  extend WebhookBase [req "type" (TLit "INITIAL_PURCHASE")].

Definition WebhookRenewal : ty :=
  extend WebhookBase [req "type" (TLit "RENEWAL")].

Definition WebhookCancellation : ty :=
  extend WebhookBase [req "type" (TLit "CANCELLATION"); req "cancel_reason" CancelReason].

Definition WebhookUnCancellation : ty :=
  extend WebhookBase [req "type" (TLit "UNCANCELLATION")].

Definition WebhookNonRenewingPurchase : ty :=
  extend WebhookBase [req "type" (TLit "NON_RENEWING_PURCHASE")].

Definition WebhookExpiration : ty :=
  extend WebhookBase [req "type" (TLit "EXPIRATION"); req "expiration_reason" ExpirationReason].

Definition WebhookSubscriptionPaused : ty :=
  extend WebhookBase [req "type" (TLit "SUBSCRIPTION_PAUSED");
                      req "expiration_reason" ExpirationReason].

Definition WebhookBillingIssue : ty :=
  extend WebhookBase [req "type" (TLit "BILLING_ISSUE")].

Definition WebhookProductChange : ty :=
  extend WebhookBase [req "type" (TLit "PRODUCT_CHANGE"); req "new_product_id" TString].

Definition WebhookSubscriptionExtended : ty :=
  extend WebhookBase [req "type" (TLit "SUBSCRIPTION_EXTENDED")].

Definition WebhookTemporaryEntitlementGrant : ty :=
  TObj [ req "type" (TLit "TEMPORARY_ENTITLEMENT_GRANT");
         req "app_user_id" TString;
         req "purchased_at_ms" TNumber;
         req "expiration_at_ms" TNumber;
         req "event_timestamp_ms" TNumber;
         req "product_id" TString;
         req "entitlement_ids" (TArray TString);
         req "store" Store;
         req "transaction_id" TString ].

(** The members of the [Webhook] union, in the order of the source. *)
Definition events : list ty :=
  [ WebhookInitialPurchase; WebhookRenewal; WebhookCancellation; WebhookUnCancellation;
    WebhookNonRenewingPurchase; WebhookExpiration; WebhookSubscriptionPaused;
    WebhookBillingIssue; WebhookProductChange; WebhookSubscriptionExtended;
    WebhookTemporaryEntitlementGrant ].

(** The members declared with [extends WebhookBase]. *)
Definition envelope_events : list ty :=
  [ WebhookInitialPurchase; WebhookRenewal; WebhookCancellation; WebhookUnCancellation;
    WebhookNonRenewingPurchase; WebhookExpiration; WebhookSubscriptionPaused;
    WebhookBillingIssue; WebhookProductChange; WebhookSubscriptionExtended ].

Definition Webhook : ty := union_of events.

End Flat.

(** The event union and its envelope members, per snapshot. *)
Definition events_of (s : snapshot) : list ty :=
  match s with Nested => Nested.events | Flat => Flat.events end.

Definition envelope_events_of (s : snapshot) : list ty :=
  match s with Nested => Nested.envelope_events | Flat => Flat.envelope_events end.

Definition product_change_of (s : snapshot) : ty :=
  match s with Nested => Nested.WebhookProductChange | Flat => Flat.WebhookProductChange end.

Definition renewal_of (s : snapshot) : ty :=
  match s with Nested => Nested.WebhookRenewal | Flat => Flat.WebhookRenewal end.

Definition temporary_entitlement_grant_of (s : snapshot) : ty :=
  match s with
  | Nested => Nested.WebhookTemporaryEntitlementGrant
  | Flat => Flat.WebhookTemporaryEntitlementGrant
  end.

(** The [WebhookBase] interface of each snapshot. *)
Definition base_of (s : snapshot) : list (string * bool * ty) :=
  match s with Nested => Nested.WebhookBase | Flat => Flat.WebhookBase end.

(** ** Narrowing *)

(** Modelled from the spec: the [Narrow] operation and its two error kinds
    (spec sections 4.1 and 7).  The repository ships declarations only; a
    consumer narrows with [switch (event.type)] (README).  [Narrow] selects
    the member of the union whose literal [type] equals the payload's [type];
    a [type] that is no member's literal is [UnknownEventType], a known
    [type] whose payload does not conform is [MalformedShape] with the names
    of the violated properties.  For the first snapshot it applies to the
    [event] field of the wire object. *)
Inductive narrow_error : Type :=
| UnknownEventType : narrow_error
| MalformedShape : list string -> narrow_error.

Record narrowed : Type := { variant : string; payload : json }.

Inductive narrow_result : Type :=
| NOk : narrowed -> narrow_result
| NErr : narrow_error -> narrow_result.

(** Whether one declared property is satisfied by an object. *)
Definition field_ok (kvs : list (string * json)) (f : string * bool * ty) : bool :=
  let '(n, o, a) := f in
  match lookup n kvs with
  | None => o
  | Some x => conforms a x
  end.

(** The declared properties named [k]. *)
Definition fields_named (k : string) (fs : list (string * bool * ty)) :=
  filter (fun f : string * bool * ty => String.eqb (fst (fst f)) k) fs.

(** The names of the declared properties an object violates. *)
Definition violations (t : ty) (kvs : list (string * json)) : list string :=
  match t with
  | TObj fs => map (fun f => fst (fst f)) (filter (fun f => negb (field_ok kvs f)) fs)
  | _ => []
  end.

Definition find_variant (tag : string) (l : list ty) : option ty :=
  find (fun t => match tag_of t with Some s => String.eqb s tag | None => false end) l.

Definition Narrow (s : snapshot) (v : json) : narrow_result :=
  match v with
  | JObj kvs =>
      match lookup "type" kvs with
      | Some (JStr tag) =>
          match find_variant tag (events_of s) with
          | Some t =>
              if conforms t v then NOk {| variant := tag; payload := v |}
              else NErr (MalformedShape (violations t kvs))
          | None => NErr UnknownEventType
          end
      | _ => NErr UnknownEventType
      end
  | _ => NErr UnknownEventType
  end.

(** ** Sample payloads *)

Definition num (z : Z) : json := JNum (inject_Z z).

(** The end-to-end example of the spec (section 8), key for key. *)
Definition spec_example : list (string * json) :=
  [ ("type", JStr "RENEWAL"); ("id", JStr "evt_1"); ("app_id", JStr "app_1");
    ("event_timestamp_ms", num 1000); ("product_id", JStr "p1");
    ("period_type", JStr "NORMAL"); ("purchased_at_ms", num 900);
    ("expiration_at_ms", num 2000); ("environment", JStr "PRODUCTION");
    ("entitlement_ids", JArr [JStr "pro"]); ("transaction_id", JStr "t1");
    ("original_transaction_id", JStr "t1"); ("is_family_share", JBool false);
    ("country_code", JStr "US"); ("app_user_id", JStr "u1");
    ("aliases", JArr [JStr "u1"]); ("original_app_user_id", JStr "u1");
    ("currency", JStr "USD"); ("price", JNum (Qmake 999 100));
    ("price_in_purchased_currency", JNum (Qmake 999 100));
    ("subscriber_attributes", JObj []); ("store", JStr "APP_STORE");
    ("is_trial_conversion", JBool true) ].

(** The example completed with the four keys it lacks, each [null]. *)
Definition spec_example_completed : list (string * json) :=
  spec_example ++
  [ ("entitlement_id", JNull); ("presented_offering_id", JNull);
    ("renewal_number", JNull); ("metadata", JNull) ].

(** Payloads of the second snapshot's envelope members. *)
Definition flat_envelope : list (string * json) :=
  set_field "presented_offering_id" JNull (set_field "entitlement_id" JNull spec_example).

Definition flat_product_change : list (string * json) :=
  set_field "new_product_id" (JStr "p2") (set_field "type" (JStr "PRODUCT_CHANGE") flat_envelope).

Definition flat_initial_purchase : list (string * json) :=
  set_field "type" (JStr "INITIAL_PURCHASE") flat_envelope.

Definition flat_expiration : list (string * json) :=
  set_field "expiration_reason" (JStr "UNSUBSCRIBE") (set_field "type" (JStr "EXPIRATION") flat_envelope).

Definition transfer_sample : list (string * json) :=
  [ ("type", JStr "TRANSFER"); ("id", JStr "evt_2"); ("app_id", JStr "app_1");
    ("environment", JStr "PRODUCTION"); ("store", JStr "PLAY_STORE");
    ("event_timestamp_ms", num 1000);
    ("transferred_from", JArr [JStr "u1"]); ("transferred_to", JArr [JStr "u2"]) ].

Definition grant_sample : list (string * json) :=
  [ ("type", JStr "TEMPORARY_ENTITLEMENT_GRANT"); ("id", JStr "evt_3");
    ("app_user_id", JStr "u1"); ("purchased_at_ms", num 900);
    ("expiration_at_ms", num 2000); ("event_timestamp_ms", num 1000);
    ("product_id", JStr "p1"); ("entitlement_ids", JNull);
    ("store", JStr "APP_STORE"); ("transaction_id", JStr "t1") ].

Example narrow_example_malformed :
  Narrow Nested (JObj spec_example) =
  NErr (MalformedShape ["entitlement_id"; "presented_offering_id"; "renewal_number"; "metadata"]).
Proof. vm_compute. reflexivity. Qed.

Example flat_samples_conform :
  conforms Flat.WebhookProductChange (JObj flat_product_change) = true /\
  conforms Flat.WebhookInitialPurchase (JObj flat_initial_purchase) = true /\
  conforms Flat.WebhookExpiration (JObj flat_expiration) = true /\
  conforms Nested.WebhookTransfer (JObj transfer_sample) = true /\
  conforms Nested.WebhookTemporaryEntitlementGrant (JObj grant_sample) = true /\
  conforms Nested.WebhookRenewal (JObj spec_example_completed) = true.
Proof. vm_compute. repeat split. Qed.

(** ** General facts about conformance *)


Lemma conforms_TObj fs kvs :
  conforms (TObj fs) (JObj kvs) = forallb (field_ok kvs) fs.
Proof.
  induction fs as [|[[n o] a] r IH]; [reflexivity|].
  cbn [forallb]. rewrite <- IH. reflexivity.
Qed.

Lemma conforms_union_of l v :
  conforms (union_of l) v = existsb (fun t => conforms t v) l.
Proof.
  induction l as [|t l IH]; [reflexivity|]. simpl. now rewrite IH.
Qed.

Lemma lookup_remove n k kvs :
  lookup n (remove_field k kvs) = if String.eqb n k then None else lookup n kvs.
Proof.
  unfold remove_field.
  induction kvs as [|[k' x] r IH]; cbn [filter lookup fst].
  - now destruct (String.eqb n k).
  - destruct (String.eqb_spec k k') as [<-|Hk]; cbn [negb lookup].
    + rewrite IH. now destruct (String.eqb n k).
    + rewrite IH. destruct (String.eqb_spec n k') as [->|Hn]; [|reflexivity].
      apply String.eqb_neq in Hk. rewrite String.eqb_sym in Hk. now rewrite Hk.
Qed.

Lemma lookup_set n k v kvs :
  lookup n (set_field k v kvs) = if String.eqb n k then Some v else lookup n kvs.
Proof.
  unfold set_field. cbn [lookup]. rewrite lookup_remove.
  now destruct (String.eqb n k).
Qed.

(** Changing a property keeps conformance when every declaration of that
    property admits the new value. *)
Lemma set_field_conforms fs kvs k v :
  conforms (TObj fs) (JObj kvs) = true ->
  forallb (fun f => conforms (snd f) v) (fields_named k fs) = true ->
  conforms (TObj fs) (JObj (set_field k v kvs)) = true.
Proof.
  rewrite !conforms_TObj, !forallb_forall. intros Hok Hk [[n o] a] Hin.
  specialize (Hok _ Hin). cbn [field_ok fst snd] in *. rewrite lookup_set.
  destruct (String.eqb_spec n k) as [->|_]; [|exact Hok].
  apply (Hk ((k, o), a)). unfold fields_named. apply filter_In. split; [exact Hin|]. apply String.eqb_refl.
Qed.

(** Changing a property breaks conformance when some declaration of it
    rejects the new value. *)
Lemma set_field_rejects fs kvs k v :
  existsb (fun f => negb (conforms (snd f) v)) (fields_named k fs) = true ->
  conforms (TObj fs) (JObj (set_field k v kvs)) = false.
Proof.
  intros Hk. rewrite conforms_TObj. apply Bool.not_true_iff_false.
  rewrite forallb_forall. intros Hall.
  apply existsb_exists in Hk as [[[n o] a] [Hin Hbad]].
  unfold fields_named in Hin. apply filter_In in Hin as [Hin Hn]. simpl in Hn, Hbad.
  apply String.eqb_eq in Hn; subst n.
  specialize (Hall _ Hin). cbn [field_ok] in Hall. rewrite lookup_set, String.eqb_refl in Hall.
  now rewrite Hall in Hbad.
Qed.

(** Dropping a property keeps conformance when every declaration of it is
    optional. *)
Lemma remove_field_conforms fs kvs k :
  conforms (TObj fs) (JObj kvs) = true ->
  forallb (fun f => snd (fst f)) (fields_named k fs) = true ->
  conforms (TObj fs) (JObj (remove_field k kvs)) = true.
Proof.
  rewrite !conforms_TObj, !forallb_forall. intros Hok Hk [[n o] a] Hin.
  specialize (Hok _ Hin). cbn [field_ok fst snd] in *. rewrite lookup_remove.
  destruct (String.eqb_spec n k) as [->|_]; [|exact Hok].
  apply (Hk ((k, o), a)). unfold fields_named. apply filter_In. split; [exact Hin|]. apply String.eqb_refl.
Qed.

(** Dropping a property breaks conformance when some declaration of it is
    required. *)
Lemma remove_field_rejects fs kvs k :
  existsb (fun f => negb (snd (fst f))) (fields_named k fs) = true ->
  conforms (TObj fs) (JObj (remove_field k kvs)) = false.
Proof.
  intros Hk. rewrite conforms_TObj. apply Bool.not_true_iff_false.
  rewrite forallb_forall. intros Hall.
  apply existsb_exists in Hk as [[[n o] a] [Hin Hbad]].
  unfold fields_named in Hin. apply filter_In in Hin as [Hin Hn]. simpl in Hn, Hbad.
  apply String.eqb_eq in Hn; subst n.
  specialize (Hall _ Hin). cbn [field_ok] in Hall. rewrite lookup_remove, String.eqb_refl in Hall.
  now rewrite Hall in Hbad.
Qed.

(** A conforming object carries the literal of its type's [type] property. *)
Lemma tag_in_lookup fs kvs tag :
  tag_in fs = Some tag ->
  forallb (field_ok kvs) fs = true ->
  lookup "type" kvs = Some (JStr tag).
Proof.
  induction fs as [|[[n o] a] r IH]; simpl; [discriminate|].
  intros Htag Hok. apply andb_prop in Hok as [Hf Hr].
  destruct o; [now apply IH|].
  destruct a; try (now apply IH).
  destruct (String.eqb_spec n "type") as [->|_]; [|now apply IH].
  injection Htag as <-.
  destruct (lookup "type" kvs) as [[]|]; try discriminate.
  simpl in Hf. apply String.eqb_eq in Hf. now subst.
Qed.

Lemma conforms_tag t v tag :
  tag_of t = Some tag -> conforms t v = true ->
  exists kvs, v = JObj kvs /\ lookup "type" kvs = Some (JStr tag).
Proof.
  destruct t; try discriminate. simpl tag_of. intros Htag Hc.
  destruct v; try discriminate.
  exists l0. split; [reflexivity|].
  rewrite conforms_TObj in Hc. now apply (tag_in_lookup l).
Qed.

Lemma NoDup_map_inj {A B} (f : A -> B) l x y :
  NoDup (map f l) -> In x l -> In y l -> f x = f y -> x = y.
Proof.
  induction l as [|z l IH]; simpl; [tauto|].
  intros Hnd Hx Hy Hf. inversion Hnd as [|? ? Hz Hnd']; subst.
  destruct Hx as [<-|Hx], Hy as [<-|Hy]; auto.
  - exfalso. apply Hz. rewrite Hf. now apply in_map.
  - exfalso. apply Hz. rewrite <- Hf. now apply in_map.
Qed.

Lemma conforms_lits l v :
  conforms (union_of (map TLit l)) v = true <-> exists s, v = JStr s /\ In s l.
Proof.
  rewrite conforms_union_of, existsb_exists. split.
  - intros [t [Hin Hc]]. apply in_map_iff in Hin as [s [<- Hs]].
    destruct v; try discriminate. simpl in Hc. apply String.eqb_eq in Hc. subst. eauto.
  - intros [s [-> Hs]]. exists (TLit s). split; [now apply in_map|]. apply String.eqb_refl.
Qed.

Ltac member_type_field :=
  do 2 eexists; split; [reflexivity|split; [reflexivity|]];
  first [left; reflexivity | apply in_or_app; left; left; reflexivity].

(** A required property of a conforming object is present and conforms to
    its declared type. *)
Lemma conforms_required fs kvs n a :
  conforms (TObj fs) (JObj kvs) = true -> In (req n a) fs ->
  exists x, lookup n kvs = Some x /\ conforms a x = true.
Proof.
  rewrite conforms_TObj, forallb_forall. intros H Hin. specialize (H _ Hin).
  unfold req, field_ok in H. destruct (lookup n kvs) as [x|]; [eauto|discriminate].
Qed.

Lemma conforms_null v : conforms TNull v = true <-> v = JNull.
Proof. destruct v; simpl; split; congruence. Qed.

(** [string[]] admits exactly the arrays of strings. *)
Lemma conforms_string_array v :
  conforms (TArray TString) v = true <-> exists l, v = JArr (map JStr l).
Proof.
  split.
  - destruct v as [| | | |l|]; try discriminate. simpl.
    induction l as [|y l IH]; intros H; [exists []; reflexivity|].
    simpl in H. apply andb_prop in H as [Hy Hl]. destruct y; try discriminate.
    destruct (IH Hl) as [l' E]. injection E as ->. exists (s :: l'). reflexivity.
  - intros [l ->]. simpl. induction l as [|y l IH]; simpl; auto.
Qed.

(** ** Changing one property of a conforming payload *)

Lemma forallb_false_existsb {A} (p : A -> bool) l :
  forallb p l = false -> existsb (fun x => negb (p x)) l = true.
Proof.
  induction l as [|x l IH]; simpl; [discriminate|].
  destruct (p x); simpl; auto.
Qed.

Lemma set_field_conforms_iff fs kvs k v :
  conforms (TObj fs) (JObj kvs) = true ->
  conforms (TObj fs) (JObj (set_field k v kvs)) =
  forallb (fun f => conforms (snd f) v) (fields_named k fs).
Proof.
  intros H. destruct (forallb _ _) eqn:E.
  - now apply set_field_conforms.
  - apply set_field_rejects. exact (forallb_false_existsb _ _ E).
Qed.

Lemma remove_field_conforms_iff fs kvs k :
  conforms (TObj fs) (JObj kvs) = true ->
  conforms (TObj fs) (JObj (remove_field k kvs)) =
  forallb (fun f => snd (fst f)) (fields_named k fs).
Proof.
  intros H. destruct (forallb _ _) eqn:E.
  - now apply remove_field_conforms.
  - apply remove_field_rejects. exact (forallb_false_existsb _ _ E).
Qed.

(** For a property declared once as [k: a] (or [k?: a]), a conforming
    payload keeps conforming after setting [k] to [v] exactly when [v]
    conforms to [a], and after dropping [k] exactly when [k] is optional. *)
Lemma set_field_single t fs kvs k o a v :
  t = TObj fs -> conforms t (JObj kvs) = true -> fields_named k fs = [(k, o, a)] ->
  conforms t (JObj (set_field k v kvs)) = conforms a v.
Proof.
  intros -> H E. rewrite set_field_conforms_iff by exact H.
  rewrite E. cbn [forallb snd]. apply andb_true_r.
Qed.

Lemma remove_field_single t fs kvs k o a :
  t = TObj fs -> conforms t (JObj kvs) = true -> fields_named k fs = [(k, o, a)] ->
  conforms t (JObj (remove_field k kvs)) = o.
Proof.
  intros -> H E. rewrite remove_field_conforms_iff by exact H.
  rewrite E. cbn [forallb snd fst]. apply andb_true_r.
Qed.

Ltac rewrite_set H k a :=
  match type of H with
  | conforms ?t (JObj ?kvs) = true =>
      rewrite (set_field_single t _ kvs k false a _ eq_refl H eq_refl)
  end.

Ltac rewrite_set_opt H k a :=
  match type of H with
  | conforms ?t (JObj ?kvs) = true =>
      rewrite (set_field_single t _ kvs k true a _ eq_refl H eq_refl)
  end.

Ltac rewrite_remove H k a o :=
  match type of H with
  | conforms ?t (JObj ?kvs) = true =>
      rewrite (remove_field_single t _ kvs k o a eq_refl H eq_refl)
  end.

(** ** C1: the members of the event union *)

(** C1 (counterexample).  Not every snapshot has the twelve documented
    variants: the second snapshot's union has the first eleven tags only, so
    no member carries the tag TRANSFER. *)
Lemma webhook_flat_union_lacks_transfer :
  map tag_of (events_of Flat) = map Some (removelast twelve_tags) /\
  find_variant "TRANSFER" (events_of Flat) = None /\
  map tag_of (events_of Flat) <> map Some twelve_tags.
Proof.
  split; [vm_compute; reflexivity|]. split; [vm_compute; reflexivity|].
  vm_compute. discriminate.
Qed.

(** C1 (amended).  The first snapshot's [event] union has exactly the twelve
    documented members, the second snapshot's top-level union the first
    eleven (all but TRANSFER); each union is closed (a value belongs to it
    iff it conforms to one of its members) and every member is an object type
    with a required [type] property of its own literal. *)
Theorem webhook_union_variants :
  map tag_of (events_of Nested) = map Some twelve_tags /\
  map tag_of (events_of Flat) = map Some (removelast twelve_tags) /\
  Nested.Webhook = TObj [req "api_version" TString; req "event" (union_of (events_of Nested))] /\
  Flat.Webhook = union_of (events_of Flat) /\
  (forall s v,
     conforms (union_of (events_of s)) v = existsb (fun t => conforms t v) (events_of s)) /\
  (forall s,
     Forall (fun t => exists fs tag, t = TObj fs /\ tag_of t = Some tag /\ In (req "type" (TLit tag)) fs)
            (events_of s)).
Proof.
  split; [vm_compute; reflexivity|].
  split; [vm_compute; reflexivity|].
  split; [reflexivity|].
  split; [reflexivity|].
  split; [intros; apply conforms_union_of|].
  intros []; repeat constructor; member_type_field.
Qed.

(** ** C2: expiration reasons *)

(** C2 (code_bug).  In the first snapshot [ExpirationReason] is exactly
    [CancelReason] plus "SUBSCRIPTION_PAUSED"; the second snapshot's own
    [ExpirationReason] (line 653) equals its [CancelReason], so an EXPIRATION
    payload with expiration reason "SUBSCRIPTION_PAUSED", which that
    snapshot's documentation of SUBSCRIPTION_PAUSED announces (line 577),
    does not conform. *)
Theorem expiration_reason_members :
  (forall v, conforms Nested.ExpirationReason v = true <->
             conforms Nested.CancelReason v = true \/ v = JStr "SUBSCRIPTION_PAUSED") /\
  (forall v, conforms Flat.ExpirationReason v = conforms Flat.CancelReason v) /\
  conforms Flat.ExpirationReason (JStr "SUBSCRIPTION_PAUSED") = false /\
  conforms Flat.WebhookExpiration (JObj flat_expiration) = true /\
  conforms Flat.WebhookExpiration
    (JObj (set_field "expiration_reason" (JStr "SUBSCRIPTION_PAUSED") flat_expiration)) = false.
Proof.
  split.
  - intros v. unfold Nested.ExpirationReason, Nested.CancelReason.
    rewrite !conforms_lits. split.
    + intros [s [-> Hs]]. simpl in Hs.
      repeat (destruct Hs as [<-|Hs];
              [first [right; reflexivity | left; eexists; split; [reflexivity|simpl; tauto]]|]).
      destruct Hs.
    + intros [[s [-> Hs]]| ->]; eexists; (split; [reflexivity|]); simpl in *; tauto.
  - split; [reflexivity|]. vm_compute. repeat split.
Qed.

(** ** C3: nullability of the expiration timestamp *)

(** C3 (code_bug).  In both snapshots every member carrying
    [expiration_at_ms] (the envelope members and TEMPORARY_ENTITLEMENT_GRANT)
    declares it as [number]: a payload whose [expiration_at_ms] is [null]
    conforms to none of them, although the property's documentation says it
    "can be NULL for non-subscription purchases".  [purchased_at_ms] is a
    required [number] as well. *)
Theorem expiration_at_ms_rejects_null :
  forall s,
    Forall (fun t => forall kvs,
              conforms t (JObj (set_field "expiration_at_ms" JNull kvs)) = false /\
              conforms t (JObj (set_field "purchased_at_ms" JNull kvs)) = false /\
              conforms t (JObj (remove_field "purchased_at_ms" kvs)) = false)
           (temporary_entitlement_grant_of s :: envelope_events_of s).
Proof.
  intros []; repeat constructor;
    first [apply set_field_rejects | apply remove_field_rejects]; reflexivity.
Qed.

(** ** C4: the TRANSFER variant *)

(** C4.  TRANSFER (first snapshot; the second has no TRANSFER member)
    declares exactly [type], [id], [app_id], [environment], [store],
    [event_timestamp_ms], [transferred_from] and [transferred_to], the last
    two lists of strings; it declares no [app_user_id], shares only five
    property names with the envelope, and a payload with exactly these eight
    keys conforms. *)
Theorem transfer_fields :
  field_names Nested.WebhookTransfer =
    ["type"; "id"; "app_id"; "environment"; "store"; "event_timestamp_ms";
     "transferred_from"; "transferred_to"] /\
  ~ In "app_user_id" (field_names Nested.WebhookTransfer) /\
  filter (fun n => existsb (String.eqb n) (field_names Nested.WebhookTransfer))
         (field_names (TObj Nested.WebhookBase)) =
    ["id"; "app_id"; "event_timestamp_ms"; "environment"; "store"] /\
  (exists fs, Nested.WebhookTransfer = TObj fs /\
     fields_named "type" fs = [req "type" (TLit "TRANSFER")] /\
     fields_named "transferred_from" fs = [req "transferred_from" (TArray TString)] /\
     fields_named "transferred_to" fs = [req "transferred_to" (TArray TString)]) /\
  map fst transfer_sample = field_names Nested.WebhookTransfer /\
  conforms Nested.WebhookTransfer (JObj transfer_sample) = true.
Proof.
  split; [reflexivity|].
  split; [simpl; intuition discriminate|].
  split; [vm_compute; reflexivity|].
  split; [eexists; split; [reflexivity|]; vm_compute; repeat split|].
  split; [reflexivity|]. vm_compute. reflexivity.
Qed.

(** ** C5: the TEMPORARY_ENTITLEMENT_GRANT variant *)

(** C5 (counterexample).  The second snapshot's TEMPORARY_ENTITLEMENT_GRANT
    declares no [id], and it rejects a payload whose [entitlement_ids] is
    [null]. *)
Lemma grant_flat_lacks_id :
  field_names Flat.WebhookTemporaryEntitlementGrant =
    ["type"; "app_user_id"; "purchased_at_ms"; "expiration_at_ms"; "event_timestamp_ms";
     "product_id"; "entitlement_ids"; "store"; "transaction_id"] /\
  ~ In "id" (field_names Flat.WebhookTemporaryEntitlementGrant) /\
  lookup "entitlement_ids" grant_sample = Some JNull /\
  conforms Flat.WebhookTemporaryEntitlementGrant (JObj grant_sample) = false.
Proof.
  split; [reflexivity|].
  split; [simpl; intuition discriminate|].
  split; vm_compute; reflexivity.
Qed.

(** C5 (amended).  In the first snapshot TEMPORARY_ENTITLEMENT_GRANT
    declares exactly [type], [id], [app_user_id], [purchased_at_ms],
    [expiration_at_ms], [event_timestamp_ms], [product_id], [entitlement_ids],
    [store] and [transaction_id], with [entitlement_ids] declared
    [string[] | null]: every conforming payload carries either [null] or a
    list of strings there, and a conforming payload keeps conforming with
    [entitlement_ids] set to [v] exactly when [v] is [null] or a list of
    strings.  In the second snapshot it declares the same without [id], with
    [entitlement_ids] declared [string[]]: every conforming payload carries a
    list of strings there, setting it to [v] keeps conformance exactly when
    [v] is a list of strings, and no payload with [entitlement_ids] [null]
    conforms.  In neither does it declare [app_id], [price] or [currency]. *)
Theorem grant_fields_per_snapshot :
  field_names Nested.WebhookTemporaryEntitlementGrant =
    ["type"; "id"; "app_user_id"; "purchased_at_ms"; "expiration_at_ms"; "event_timestamp_ms";
     "product_id"; "entitlement_ids"; "store"; "transaction_id"] /\
  (exists fs, Nested.WebhookTemporaryEntitlementGrant = TObj fs /\
     fields_named "entitlement_ids" fs = [req "entitlement_ids" (TUnion (TArray TString) TNull)]) /\
  (forall v, conforms Nested.WebhookTemporaryEntitlementGrant v = true ->
     exists kvs x, v = JObj kvs /\ lookup "entitlement_ids" kvs = Some x /\
       (x = JNull \/ exists l, x = JArr (map JStr l))) /\
  (forall kvs v, conforms Nested.WebhookTemporaryEntitlementGrant (JObj kvs) = true ->
     (conforms Nested.WebhookTemporaryEntitlementGrant (JObj (set_field "entitlement_ids" v kvs)) = true <->
      v = JNull \/ exists l, v = JArr (map JStr l))) /\
  conforms Nested.WebhookTemporaryEntitlementGrant (JObj grant_sample) = true /\
  field_names Flat.WebhookTemporaryEntitlementGrant =
    ["type"; "app_user_id"; "purchased_at_ms"; "expiration_at_ms"; "event_timestamp_ms";
     "product_id"; "entitlement_ids"; "store"; "transaction_id"] /\
  (exists fs, Flat.WebhookTemporaryEntitlementGrant = TObj fs /\
     fields_named "entitlement_ids" fs = [req "entitlement_ids" (TArray TString)]) /\
  (forall v, conforms Flat.WebhookTemporaryEntitlementGrant v = true ->
     exists kvs l, v = JObj kvs /\ lookup "entitlement_ids" kvs = Some (JArr (map JStr l))) /\
  (forall kvs v, conforms Flat.WebhookTemporaryEntitlementGrant (JObj kvs) = true ->
     (conforms Flat.WebhookTemporaryEntitlementGrant (JObj (set_field "entitlement_ids" v kvs)) = true <->
      exists l, v = JArr (map JStr l))) /\
  (forall kvs,
     conforms Flat.WebhookTemporaryEntitlementGrant (JObj (set_field "entitlement_ids" JNull kvs)) = false) /\
  conforms Flat.WebhookTemporaryEntitlementGrant
    (JObj (set_field "entitlement_ids" (JArr [JStr "pro"]) (remove_field "id" grant_sample))) = true /\
  conforms Flat.WebhookTemporaryEntitlementGrant (JObj grant_sample) = false /\
  (forall s, Forall (fun n => ~ In n (field_names (temporary_entitlement_grant_of s)))
                    ["app_id"; "price"; "currency"]).
Proof.
  assert (Hu : forall v, conforms (TUnion (TArray TString) TNull) v = true <->
                         v = JNull \/ exists l, v = JArr (map JStr l)).
  { intros v. change (conforms (TUnion (TArray TString) TNull) v)
      with (conforms (TArray TString) v || conforms TNull v).
    rewrite orb_true_iff, conforms_string_array, conforms_null. tauto. }
  split; [reflexivity|].
  split; [eexists; split; [reflexivity|]; reflexivity|].
  split.
  { intros [| | | | |kvs] H; try discriminate H.
    destruct (conforms_required _ kvs "entitlement_ids" (TUnion (TArray TString) TNull) H)
      as [x [Hx Hc]]; [cbn; repeat first [left; reflexivity | right]|].
    exists kvs, x. split; [reflexivity|]. split; [exact Hx|]. now apply Hu. }
  split.
  { intros kvs v H. rewrite_set H "entitlement_ids" (TUnion (TArray TString) TNull). apply Hu. }
  split; [vm_compute; reflexivity|].
  split; [reflexivity|].
  split; [eexists; split; [reflexivity|]; reflexivity|].
  split.
  { intros [| | | | |kvs] H; try discriminate H.
    destruct (conforms_required _ kvs "entitlement_ids" (TArray TString) H)
      as [x [Hx Hc]]; [cbn; repeat first [left; reflexivity | right]|].
    apply conforms_string_array in Hc as [l ->]. eauto. }
  split.
  { intros kvs v H. rewrite_set H "entitlement_ids" (TArray TString). apply conforms_string_array. }
  split; [intros kvs; apply set_field_rejects; reflexivity|].
  split; [vm_compute; reflexivity|].
  split; [vm_compute; reflexivity|].
  intros []; repeat constructor; simpl; intuition discriminate.
Qed.

(** ** C6: nullability of the prices *)

(** C6 (counterexample).  In the second snapshot [price] and
    [price_in_purchased_currency] are [number]: an INITIAL_PURCHASE payload
    that conforms stops conforming when either is set to [null]. *)
Lemma price_null_flat_rejected :
  conforms Flat.WebhookInitialPurchase (JObj flat_initial_purchase) = true /\
  conforms Flat.WebhookInitialPurchase (JObj (set_field "price" JNull flat_initial_purchase)) = false /\
  conforms Flat.WebhookInitialPurchase
    (JObj (set_field "price_in_purchased_currency" JNull flat_initial_purchase)) = false.
Proof. vm_compute. repeat split. Qed.

(** C6 (amended).  In the first snapshot every envelope member admits
    [null] and any number (zero, negative) for [price] and
    [price_in_purchased_currency]; in the second snapshot every envelope
    member admits any number for both and rejects [null]. *)
Theorem price_nullability_per_snapshot :
  (forall kvs q,
     Forall (fun t => conforms t (JObj kvs) = true ->
               conforms t (JObj (set_field "price" JNull kvs)) = true /\
               conforms t (JObj (set_field "price_in_purchased_currency" JNull kvs)) = true /\
               conforms t (JObj (set_field "price" (JNum q) kvs)) = true /\
               conforms t (JObj (set_field "price_in_purchased_currency" (JNum q) kvs)) = true)
            Nested.envelope_events) /\
  (forall kvs q,
     Forall (fun t =>
               conforms t (JObj (set_field "price" JNull kvs)) = false /\
               conforms t (JObj (set_field "price_in_purchased_currency" JNull kvs)) = false /\
               (conforms t (JObj kvs) = true ->
                conforms t (JObj (set_field "price" (JNum q) kvs)) = true /\
                conforms t (JObj (set_field "price_in_purchased_currency" (JNum q) kvs)) = true))
            Flat.envelope_events).
Proof.
  split; intros kvs q; repeat constructor;
    first [ apply set_field_rejects; reflexivity
          | apply set_field_conforms; [assumption | reflexivity] ].
Qed.

(** ** C7: the optional [new_product_id] *)

(** C7 (counterexample).  In the second snapshot [new_product_id] is
    required: a conforming PRODUCT_CHANGE payload stops conforming when the
    key is dropped. *)
Lemma product_change_flat_requires_new_product_id :
  conforms Flat.WebhookProductChange (JObj flat_product_change) = true /\
  conforms Flat.WebhookProductChange
    (JObj (remove_field "new_product_id" flat_product_change)) = false.
Proof. vm_compute. split; reflexivity. Qed.

(** C7 (amended).  In the first snapshot a PRODUCT_CHANGE payload conforms
    both with [new_product_id] a string and with the key absent; in the
    second snapshot it conforms with a string and never with the key
    absent. *)
Theorem product_change_new_product_id :
  (forall kvs str,
     conforms Nested.WebhookProductChange (JObj kvs) = true ->
     conforms Nested.WebhookProductChange (JObj (set_field "new_product_id" (JStr str) kvs)) = true /\
     conforms Nested.WebhookProductChange (JObj (remove_field "new_product_id" kvs)) = true) /\
  (forall kvs str,
     (conforms Flat.WebhookProductChange (JObj kvs) = true ->
      conforms Flat.WebhookProductChange (JObj (set_field "new_product_id" (JStr str) kvs)) = true) /\
     conforms Flat.WebhookProductChange (JObj (remove_field "new_product_id" kvs)) = false).
Proof.
  split; intros kvs str; repeat split; intros;
    first [ apply remove_field_rejects; reflexivity
          | apply remove_field_conforms; [assumption | reflexivity]
          | apply set_field_conforms; [assumption | reflexivity] ].
Qed.

(** ** C8: unknown event types *)

Lemma events_tags_known s t :
  In t (events_of s) -> exists tag, tag_of t = Some tag /\ In tag twelve_tags.
Proof.
  destruct s; simpl; intros H; repeat destruct H as [<-|H]; try destruct H;
    eexists; (split; [reflexivity|]); simpl; tauto.
Qed.

Lemma find_variant_tag tag l t :
  find_variant tag l = Some t -> In t l /\ tag_of t = Some tag.
Proof.
  unfold find_variant. intros H. apply find_some in H as [Hin Hp].
  destruct (tag_of t) as [s|]; [|discriminate].
  apply String.eqb_eq in Hp. subst. auto.
Qed.

(** C8.  Spec-modelled [Narrow]: on an object whose [type] is not one of the
    twelve documented literals (absent, not a string, or an unknown string)
    [Narrow] returns [UnknownEventType], never a [MalformedShape] error and
    never a narrowed value; a known [type] whose payload does not conform
    gives [MalformedShape] with the violated properties instead. *)
Theorem narrow_unknown_event_type s kvs :
  (forall tag, lookup "type" kvs = Some (JStr tag) -> ~ In tag twelve_tags) ->
  Narrow s (JObj kvs) = NErr UnknownEventType /\
  (forall l, Narrow s (JObj kvs) <> NErr (MalformedShape l)) /\
  (forall n, Narrow s (JObj kvs) <> NOk n) /\
  (forall tag t kvs',
     lookup "type" kvs' = Some (JStr tag) -> find_variant tag (events_of s) = Some t ->
     conforms t (JObj kvs') = false ->
     Narrow s (JObj kvs') = NErr (MalformedShape (violations t kvs'))).
Proof.
  intros H.
  assert (E : Narrow s (JObj kvs) = NErr UnknownEventType).
  { unfold Narrow.
    destruct (lookup "type" kvs) as [[| | | tag | |]|] eqn:Hl; try reflexivity.
    destruct (find_variant tag (events_of s)) as [t|] eqn:Hf; [|reflexivity].
    exfalso. apply find_variant_tag in Hf as [Hin Ht].
    destruct (events_tags_known s t Hin) as [tag' [Ht' Hk]].
    rewrite Ht in Ht'. injection Ht' as <-. exact (H tag eq_refl Hk). }
  split; [exact E|]. split; [intros l; rewrite E; discriminate|].
  split; [intros n; rewrite E; discriminate|].
  intros tag t kvs' Hl Hf Hc. unfold Narrow. rewrite Hl, Hf, Hc. reflexivity.
Qed.

Lemma narrow_unknown_event_type_witness :
  Narrow Nested (JObj [("type", JStr "SOME_FUTURE_TYPE")]) = NErr UnknownEventType.
Proof.
  refine (proj1 (narrow_unknown_event_type Nested [("type", JStr "SOME_FUTURE_TYPE")] _)).
  intros tag H. simpl in H. injection H as <-. simpl. intuition discriminate.
Defined.

(** ** C9: the end-to-end example *)

(** C9 (counterexample).  The spec's example does not conform to RENEWAL in
    either snapshot: it lacks required keys ([entitlement_id],
    [presented_offering_id], and in the first snapshot also
    [renewal_number] and [metadata]), so [Narrow] reports [MalformedShape]. *)
Lemma spec_example_not_renewal :
  conforms Nested.WebhookRenewal (JObj spec_example) = false /\
  conforms Flat.WebhookRenewal (JObj spec_example) = false /\
  violations Flat.WebhookRenewal spec_example = ["entitlement_id"; "presented_offering_id"] /\
  Narrow Nested (JObj spec_example) =
    NErr (MalformedShape ["entitlement_id"; "presented_offering_id"; "renewal_number"; "metadata"]).
Proof. vm_compute. repeat split. Qed.

(** C9 (amended).  [Narrow] reports on the spec's example the four missing
    keys; the example completed with these four keys set to [null] conforms
    to the first snapshot's RENEWAL: [Narrow] returns it as a RENEWAL value
    with [is_trial_conversion] true and every required envelope property
    present and well typed. *)
Theorem narrow_spec_example_completed :
  Narrow Nested (JObj spec_example) =
    NErr (MalformedShape ["entitlement_id"; "presented_offering_id"; "renewal_number"; "metadata"]) /\
  Narrow Nested (JObj spec_example_completed) =
    NOk {| variant := "RENEWAL"; payload := JObj spec_example_completed |} /\
  conforms Nested.WebhookRenewal (JObj spec_example_completed) = true /\
  lookup "is_trial_conversion" spec_example_completed = Some (JBool true) /\
  forallb (field_ok spec_example_completed) Nested.WebhookBase = true.
Proof. vm_compute. repeat split. Qed.

(** ** C10: the discriminator *)

(** C10.  In each snapshot the members' [type] literals are pairwise
    distinct, and a value conforms to at most one member of the union. *)
Theorem discriminator_unique s v t1 t2 :
  In t1 (events_of s) -> In t2 (events_of s) ->
  conforms t1 v = true -> conforms t2 v = true ->
  NoDup (map tag_of (events_of s)) /\ t1 = t2.
Proof.
  intros H1 H2 C1 C2.
  assert (Hnd : NoDup (map tag_of (events_of s))).
  { destruct s; vm_compute;
      repeat (apply NoDup_cons; [simpl; intuition discriminate|]); apply NoDup_nil. }
  split; [exact Hnd|].
  destruct (events_tags_known s t1 H1) as [tag1 [Ht1 _]].
  destruct (events_tags_known s t2 H2) as [tag2 [Ht2 _]].
  destruct (conforms_tag t1 v tag1 Ht1 C1) as [kvs [-> Hl1]].
  destruct (conforms_tag t2 (JObj kvs) tag2 Ht2 C2) as [kvs' [Heq Hl2]].
  injection Heq as <-. rewrite Hl1 in Hl2. injection Hl2 as <-.
  apply (NoDup_map_inj tag_of (events_of s)); auto. congruence.
Qed.

Lemma discriminator_unique_witness :
  NoDup (map tag_of (events_of Nested)) /\ Nested.WebhookRenewal = Nested.WebhookRenewal.
Proof.
  apply (discriminator_unique Nested (JObj spec_example_completed)
           Nested.WebhookRenewal Nested.WebhookRenewal);
    [simpl; tauto | simpl; tauto | vm_compute; reflexivity | vm_compute; reflexivity].
Defined.

(** * Further properties of the declarations *)

Lemma events_tags_nodup s : NoDup (map tag_of (events_of s)).
Proof.
  destruct s; vm_compute;
    repeat (apply NoDup_cons; [simpl; intuition discriminate|]); apply NoDup_nil.
Qed.

(** ** Narrowing by [switch (req.type)] (README) *)

(** X1.  A value of the [Webhook] union of either snapshot always carries a
    [type] that is one of the twelve documented literals, and the union
    member selected by that literal is one the value conforms to: the
    README's [switch (req.type)] narrows soundly. *)
Theorem switch_on_type_narrows s kvs :
  conforms (union_of (events_of s)) (JObj kvs) = true ->
  exists tag t,
    lookup "type" kvs = Some (JStr tag) /\ In tag twelve_tags /\
    find_variant tag (events_of s) = Some t /\ conforms t (JObj kvs) = true.
Proof.
  rewrite conforms_union_of, existsb_exists. intros [t0 [Hin Hc]].
  destruct (events_tags_known s t0 Hin) as [tag [Ht0 Hk]].
  destruct (conforms_tag t0 (JObj kvs) tag Ht0 Hc) as [kvs' [Heq Hl]].
  injection Heq as <-.
  exists tag, t0. split; [exact Hl|]. split; [exact Hk|]. split; [|exact Hc].
  destruct (find_variant tag (events_of s)) as [t|] eqn:Hf.
  - apply find_variant_tag in Hf as [Hin' Ht].
    f_equal. apply (NoDup_map_inj tag_of (events_of s)); auto using events_tags_nodup.
    congruence.
  - exfalso. unfold find_variant in Hf.
    pose proof (find_none _ _ Hf t0 Hin) as Hn. simpl in Hn.
    rewrite Ht0, String.eqb_refl in Hn. discriminate.
Qed.

Lemma switch_on_type_narrows_witness :
  exists tag t,
    lookup "type" spec_example_completed = Some (JStr tag) /\ In tag twelve_tags /\
    find_variant tag (events_of Nested) = Some t /\ conforms t (JObj spec_example_completed) = true.
Proof.
  apply (switch_on_type_narrows Nested spec_example_completed). vm_compute. reflexivity.
Defined.

(** ** The envelope's required and optional properties *)

(** X3.  In both snapshots, dropping any required property of [WebhookBase]
    (the nullable ones such as [entitlement_id] and [presented_offering_id]
    included) from a payload makes it conform to no envelope member. *)
Theorem envelope_required_fields s :
  Forall (fun t => forall kvs n,
            In n (map (fun f => fst (fst f)) (filter (fun f => negb (snd (fst f))) (base_of s))) ->
            conforms t (JObj (remove_field n kvs)) = false)
         (envelope_events_of s).
Proof.
  destruct s; repeat constructor; intros kvs n Hn; simpl in Hn;
    repeat destruct Hn as [<-|Hn]; try destruct Hn;
    apply remove_field_rejects; reflexivity.
Qed.

(** X4.  In both snapshots the economic properties [takehome_percentage],
    [offer_code], [tax_percentage] and [commission_percentage] may be left
    out of an envelope payload; [offer_code] may be [null], the other three
    may not. *)
Theorem envelope_optional_fields s :
  Forall (fun t => forall kvs, conforms t (JObj kvs) = true ->
            Forall (fun n => conforms t (JObj (remove_field n kvs)) = true)
                   ["takehome_percentage"; "offer_code"; "tax_percentage"; "commission_percentage"] /\
            conforms t (JObj (set_field "offer_code" JNull kvs)) = true /\
            Forall (fun n => conforms t (JObj (set_field n JNull kvs)) = false)
                   ["takehome_percentage"; "tax_percentage"; "commission_percentage"])
         (envelope_events_of s).
Proof.
  destruct s; repeat constructor; intros;
    first [ apply set_field_rejects; reflexivity
          | apply remove_field_conforms; [assumption | reflexivity]
          | apply set_field_conforms; [assumption | reflexivity] ].
Qed.

(** ** Enumerations *)

(** X5.  In both snapshots, a conforming payload of any member keeps
    conforming with [store] set to [v] exactly when [v] is one of the six
    store literals, and a conforming payload of any member declaring
    [environment] keeps conforming with [environment] set to [v] exactly
    when [v] is "SANDBOX" or "PRODUCTION". *)
Theorem store_environment_literals s :
  Forall (fun t => forall kvs v, conforms t (JObj kvs) = true ->
            (conforms t (JObj (set_field "store" v kvs)) = true <->
             exists x, v = JStr x /\
               In x ["AMAZON"; "APP_STORE"; "MAC_APP_STORE"; "PLAY_STORE"; "PROMOTIONAL"; "STRIPE"]))
         (events_of s) /\
  Forall (fun t => forall kvs v, conforms t (JObj kvs) = true ->
            (conforms t (JObj (set_field "environment" v kvs)) = true <->
             exists x, v = JStr x /\ In x ["SANDBOX"; "PRODUCTION"]))
         (filter (fun t => existsb (String.eqb "environment") (field_names t)) (events_of s)).
Proof.
  split; apply Forall_forall; intros t Ht kvs v H; destruct s; simpl in Ht;
    repeat destruct Ht as [<-|Ht]; try destruct Ht;
    first [ rewrite_set H "store" Nested.Store; unfold Nested.Store
          | rewrite_set H "environment" Nested.Environment; unfold Nested.Environment ];
    apply conforms_lits.
Qed.

(** X6.  In both snapshots a CANCELLATION payload needs [cancel_reason]:
    dropping it breaks conformance, and setting it to [v] keeps conformance
    exactly when [v] is one of the six cancel reasons. *)
Theorem cancel_reason_literals :
  Forall (fun t => forall kvs v, conforms t (JObj kvs) = true ->
            (conforms t (JObj (set_field "cancel_reason" v kvs)) = true <->
             exists x, v = JStr x /\
               In x ["UNSUBSCRIBE"; "BILLING_ERROR"; "DEVELOPER_INITIATED";
                     "PRICE_INCREASE"; "CUSTOMER_SUPPORT"; "UNKNOWN"]) /\
            conforms t (JObj (remove_field "cancel_reason" kvs)) = false)
         [Nested.WebhookCancellation; Flat.WebhookCancellation].
Proof.
  apply Forall_forall; intros t Ht kvs v H; simpl in Ht;
    repeat destruct Ht as [<-|Ht]; try destruct Ht;
    (split; [|apply remove_field_rejects; reflexivity]);
    rewrite_set H "cancel_reason" Nested.CancelReason; unfold Nested.CancelReason;
    apply conforms_lits.
Qed.

(** ** Fields specific to one event type (first snapshot) *)

(** X7.  A BILLING_ISSUE payload of the first snapshot must carry
    [grace_period_expiration_at_ms]; it keeps conforming with that property
    set to [v] exactly when [v] is a number or [null]. *)
Theorem billing_issue_grace_period kvs v :
  conforms Nested.WebhookBillingIssue (JObj kvs) = true ->
  conforms Nested.WebhookBillingIssue (JObj (set_field "grace_period_expiration_at_ms" v kvs)) =
    conforms (TUnion TNumber TNull) v /\
  conforms Nested.WebhookBillingIssue (JObj (remove_field "grace_period_expiration_at_ms" kvs)) = false.
Proof.
  intros H. split.
  - rewrite_set H "grace_period_expiration_at_ms" (TUnion TNumber TNull). reflexivity.
  - apply remove_field_rejects. reflexivity.
Qed.

Lemma billing_issue_grace_period_witness :
  let kvs := set_field "grace_period_expiration_at_ms" JNull
               (set_field "type" (JStr "BILLING_ISSUE") spec_example_completed) in
  conforms Nested.WebhookBillingIssue (JObj (set_field "grace_period_expiration_at_ms" (num 5000) kvs)) =
    conforms (TUnion TNumber TNull) (num 5000) /\
  conforms Nested.WebhookBillingIssue (JObj (remove_field "grace_period_expiration_at_ms" kvs)) = false.
Proof.
  intros kvs. apply (billing_issue_grace_period kvs (num 5000)). vm_compute. reflexivity.
Defined.

(** X8.  A SUBSCRIPTION_PAUSED payload of the first snapshot may omit
    [auto_resume_at_ms], and keeps conforming with it set to [v] exactly when
    [v] is a number (not [null]); it must carry [expiration_reason], which
    accepts exactly the expiration reasons. *)
Theorem subscription_paused_fields kvs v :
  conforms Nested.WebhookSubscriptionPaused (JObj kvs) = true ->
  conforms Nested.WebhookSubscriptionPaused (JObj (set_field "auto_resume_at_ms" v kvs)) =
    conforms TNumber v /\
  conforms Nested.WebhookSubscriptionPaused (JObj (remove_field "auto_resume_at_ms" kvs)) = true /\
  conforms Nested.WebhookSubscriptionPaused (JObj (set_field "expiration_reason" v kvs)) =
    conforms Nested.ExpirationReason v /\
  conforms Nested.WebhookSubscriptionPaused (JObj (remove_field "expiration_reason" kvs)) = false.
Proof.
  intros H. split; [|split; [|split]].
  - rewrite_set_opt H "auto_resume_at_ms" TNumber. reflexivity.
  - rewrite_remove H "auto_resume_at_ms" TNumber true. reflexivity.
  - rewrite_set H "expiration_reason" Nested.ExpirationReason. reflexivity.
  - apply remove_field_rejects. reflexivity.
Qed.

Lemma subscription_paused_fields_witness :
  let kvs := set_field "expiration_reason" (JStr "UNSUBSCRIBE")
               (set_field "type" (JStr "SUBSCRIPTION_PAUSED") spec_example_completed) in
  conforms Nested.WebhookSubscriptionPaused (JObj (set_field "auto_resume_at_ms" JNull kvs)) =
    conforms TNumber JNull /\
  conforms Nested.WebhookSubscriptionPaused (JObj (remove_field "auto_resume_at_ms" kvs)) = true /\
  conforms Nested.WebhookSubscriptionPaused (JObj (set_field "expiration_reason" JNull kvs)) =
    conforms Nested.ExpirationReason JNull /\
  conforms Nested.WebhookSubscriptionPaused (JObj (remove_field "expiration_reason" kvs)) = false.
Proof.
  intros kvs. apply (subscription_paused_fields kvs JNull). vm_compute. reflexivity.
Defined.

(** X9.  A RENEWAL payload of the first snapshot must carry
    [is_trial_conversion] and keeps conforming with it set to [v] exactly
    when [v] is a boolean; the second snapshot's RENEWAL does not declare it,
    so dropping it keeps a conforming payload conforming. *)
Theorem renewal_is_trial_conversion kvs kvs' v :
  conforms Nested.WebhookRenewal (JObj kvs) = true ->
  conforms Flat.WebhookRenewal (JObj kvs') = true ->
  conforms Nested.WebhookRenewal (JObj (set_field "is_trial_conversion" v kvs)) = conforms TBool v /\
  conforms Nested.WebhookRenewal (JObj (remove_field "is_trial_conversion" kvs)) = false /\
  conforms Flat.WebhookRenewal (JObj (remove_field "is_trial_conversion" kvs')) = true.
Proof.
  intros H H'. split; [|split].
  - rewrite_set H "is_trial_conversion" TBool. reflexivity.
  - apply remove_field_rejects. reflexivity.
  - apply remove_field_conforms; [exact H' | reflexivity].
Qed.

Lemma renewal_is_trial_conversion_witness :
  conforms Nested.WebhookRenewal
    (JObj (set_field "is_trial_conversion" JNull spec_example_completed)) = conforms TBool JNull /\
  conforms Nested.WebhookRenewal (JObj (remove_field "is_trial_conversion" spec_example_completed)) = false /\
  conforms Flat.WebhookRenewal (JObj (remove_field "is_trial_conversion" flat_envelope)) = true.
Proof.
  apply (renewal_is_trial_conversion spec_example_completed flat_envelope JNull);
    vm_compute; reflexivity.
Defined.

(** ** Event types sharing one payload shape *)

Lemma filter_nil_false {A} (p : A -> bool) l x :
  filter p l = [] -> In x l -> p x = false.
Proof.
  intros Hf Hin. destruct (p x) eqn:E; [|reflexivity].
  assert (Hx : In x (filter p l)) by (apply filter_In; auto).
  rewrite Hf in Hx. destruct Hx.
Qed.

Lemma retag base tag1 tag2 kvs :
  fields_named "type" base = [] ->
  conforms (extend base [req "type" (TLit tag1)]) (JObj kvs) = true ->
  conforms (extend base [req "type" (TLit tag2)]) (JObj (set_field "type" (JStr tag2) kvs)) = true.
Proof.
  intros Hb H. unfold extend in *. rewrite conforms_TObj in *. cbn [app forallb] in *.
  apply andb_prop in H as [_ H]. apply andb_true_intro. split.
  - cbn [field_ok req]. rewrite lookup_set, String.eqb_refl. apply String.eqb_refl.
  - rewrite forallb_forall in *. intros [[n o] a] Hin.
    pose proof (filter_nil_false _ _ _ Hb Hin) as Hn. cbn [fst] in Hn.
    specialize (H _ Hin). cbn [field_ok] in *. rewrite lookup_set, Hn. exact H.
Qed.

(** X10.  Event types whose interfaces add nothing to [WebhookBase] but
    their [type] share one payload shape: giving a conforming payload of one
    of them the [type] of another yields a conforming payload of the other.
    These are INITIAL_PURCHASE, UNCANCELLATION, NON_RENEWING_PURCHASE and
    SUBSCRIPTION_EXTENDED in the first snapshot, and these together with
    RENEWAL and BILLING_ISSUE in the second. *)
Theorem retag_shared_shape :
  (let l := [("INITIAL_PURCHASE", Nested.WebhookInitialPurchase);
             ("UNCANCELLATION", Nested.WebhookUnCancellation);
             ("NON_RENEWING_PURCHASE", Nested.WebhookNonRenewingPurchase);
             ("SUBSCRIPTION_EXTENDED", Nested.WebhookSubscriptionExtended)] in
   Forall (fun p1 => Forall (fun p2 => forall kvs,
     conforms (snd p1) (JObj kvs) = true ->
     conforms (snd p2) (JObj (set_field "type" (JStr (fst p2)) kvs)) = true) l) l) /\
  (let l := [("INITIAL_PURCHASE", Flat.WebhookInitialPurchase);
             ("RENEWAL", Flat.WebhookRenewal);
             ("UNCANCELLATION", Flat.WebhookUnCancellation);
             ("NON_RENEWING_PURCHASE", Flat.WebhookNonRenewingPurchase);
             ("BILLING_ISSUE", Flat.WebhookBillingIssue);
             ("SUBSCRIPTION_EXTENDED", Flat.WebhookSubscriptionExtended)] in
   Forall (fun p1 => Forall (fun p2 => forall kvs,
     conforms (snd p1) (JObj kvs) = true ->
     conforms (snd p2) (JObj (set_field "type" (JStr (fst p2)) kvs)) = true) l) l).
Proof.
  split; cbv zeta; repeat constructor; intros kvs H; cbn [fst snd] in *;
    (eapply retag; [reflexivity | exact H]).
Qed.

(** ** From the first snapshot to the second *)

Lemma conforms_sub t1 t2 fs1 fs2 extra kvs :
  t1 = TObj fs1 -> t2 = TObj fs2 ->
  (forall f, In f fs2 -> In f fs1 \/ In f extra) ->
  forallb (field_ok kvs) extra = true ->
  conforms t1 (JObj kvs) = true -> conforms t2 (JObj kvs) = true.
Proof.
  intros -> -> Hsub Hx Hc. rewrite conforms_TObj, forallb_forall in *.
  intros f Hf. destruct (Hsub f Hf) as [H|H]; auto.
Qed.

Ltac in_list := solve [repeat first [left; reflexivity | right]].

(** X11.  A payload conforming to the first snapshot's INITIAL_PURCHASE,
    RENEWAL, CANCELLATION, UNCANCELLATION, NON_RENEWING_PURCHASE,
    BILLING_ISSUE or SUBSCRIPTION_EXTENDED conforms to the second snapshot's
    type of the same name as soon as its [entitlement_ids] is a list of
    strings and its two prices are numbers (not [null]). *)
Theorem nested_to_flat kvs :
  forallb (field_ok kvs) [req "entitlement_ids" (TArray TString); req "price" TNumber;
                          req "price_in_purchased_currency" TNumber] = true ->
  Forall (fun p => conforms (fst p) (JObj kvs) = true -> conforms (snd p) (JObj kvs) = true)
    [(Nested.WebhookInitialPurchase, Flat.WebhookInitialPurchase);
     (Nested.WebhookRenewal, Flat.WebhookRenewal);
     (Nested.WebhookCancellation, Flat.WebhookCancellation);
     (Nested.WebhookUnCancellation, Flat.WebhookUnCancellation);
     (Nested.WebhookNonRenewingPurchase, Flat.WebhookNonRenewingPurchase);
     (Nested.WebhookBillingIssue, Flat.WebhookBillingIssue);
     (Nested.WebhookSubscriptionExtended, Flat.WebhookSubscriptionExtended)].
Proof.
  intros Hx. repeat constructor; intros Hc; cbn [fst snd] in *;
    (refine (conforms_sub _ _ _ _ _ kvs eq_refl eq_refl _ Hx Hc));
    intros f Hf; unfold Flat.WebhookBase, Nested.WebhookBase in *; simpl in Hf |- *;
    repeat destruct Hf as [<-|Hf]; try destruct Hf;
    first [left; in_list | right; in_list].
Qed.

Lemma nested_to_flat_witness :
  Forall (fun p => conforms (fst p) (JObj spec_example_completed) = true ->
                   conforms (snd p) (JObj spec_example_completed) = true)
    [(Nested.WebhookInitialPurchase, Flat.WebhookInitialPurchase);
     (Nested.WebhookRenewal, Flat.WebhookRenewal);
     (Nested.WebhookCancellation, Flat.WebhookCancellation);
     (Nested.WebhookUnCancellation, Flat.WebhookUnCancellation);
     (Nested.WebhookNonRenewingPurchase, Flat.WebhookNonRenewingPurchase);
     (Nested.WebhookBillingIssue, Flat.WebhookBillingIssue);
     (Nested.WebhookSubscriptionExtended, Flat.WebhookSubscriptionExtended)].
Proof.
  apply (nested_to_flat spec_example_completed). vm_compute. reflexivity.
Defined.

(** ** Subscriber attributes *)

(** X12.  In both snapshots, an envelope payload keeps conforming with
    [subscriber_attributes] replaced by an object [attrs] exactly when every
    entry of [attrs], whatever its key, is an object with a numeric
    [updated_at_ms] and a string [value]. *)
Theorem subscriber_attributes_open_keys s :
  Forall (fun t => forall kvs attrs, conforms t (JObj kvs) = true ->
            conforms t (JObj (set_field "subscriber_attributes" (JObj attrs) kvs)) =
            forallb (fun kv => conforms (TObj [req "updated_at_ms" TNumber; req "value" TString]) (snd kv))
                    attrs)
         (envelope_events_of s).
Proof.
  apply Forall_forall; intros t Ht kvs attrs H; destruct s; simpl in Ht;
    repeat destruct Ht as [<-|Ht]; try destruct Ht;
    rewrite_set H "subscriber_attributes" Nested.Attributes; reflexivity.
Qed.
